(** * Credential hashing, login/signup and verification codes of
      app/services/auth.server.ts

    A shallow embedding of the authentication service: the salted scrypt
    password hasher ([hash], [compare]), the payload schema, the form
    strategy (login / signup), the Google strategy (upsert by email) and the
    verification-code issuer, together with the properties of the
    specification that concern them.

    JavaScript strings are modelled as [string], buffers as [list byte],
    promises by their final state, and the database as explicit state. *)

From Stdlib Require Import List String Ascii Bool Arith NArith ZArith Lia.
From Stdlib.Strings Require Import Byte.
Import ListNotations.
Open Scope string_scope.

Set Implicit Arguments.
#[local] Set Warnings "-register-all".

(* ================================================================== *)
(** ** JavaScript errors *)

(** An error object: the constructor name, the message, the [code] property
    Node and Prisma attach (empty when there is none) and, for
    [new Error(msg, { cause })], the flattened field list given as cause. *)
Record jsError : Type := mkError {
  err_name : string;
  err_message : string;
  err_code : string;
  err_cause : list string
}.

(** [new Error(msg)] *)
Definition Error (msg : string) : jsError :=
  mkError "Error" msg EmptyString [].

(** [new Error(msg, { cause })] *)
Definition ErrorWithCause (msg : string) (cause : list string) : jsError :=
  mkError "Error" msg EmptyString cause.

(** What [Buffer.from(undefined, "hex")] throws. *)
Definition ERR_INVALID_ARG_TYPE : jsError :=
  mkError "TypeError"
    "The first argument must be of type string or an instance of Buffer, ArrayBuffer, or Array or an Array-like Object. Received undefined"
    "ERR_INVALID_ARG_TYPE" [].

(** What [timingSafeEqual] throws on buffers of different byte length. *)
Definition ERR_CRYPTO_TIMING_SAFE_EQUAL_LENGTH : jsError :=
  mkError "RangeError" "Input buffers must have the same byte length"
    "ERR_CRYPTO_TIMING_SAFE_EQUAL_LENGTH" [].

(** What reading a property of [undefined] throws
    ([derivedKey.toString] when scrypt reported an error,
     [profile.emails[0].value] when the profile has no e-mail). *)
Definition ERR_UNDEFINED_PROPERTY : jsError :=
  mkError "TypeError" "Cannot read properties of undefined" EmptyString [].

(** The shape of an error as a caller sees it: its type and its message. *)
Definition error_shape (e : jsError) : string * string :=
  (err_name e, err_message e).

(* ================================================================== *)
(** ** Buffers and the hex encoding *)

(** The lower-case hex digit of a nibble: [buf.toString("hex")]. *)
Definition hex_digit (n : N) : ascii :=
  if (n <? 10)%N then ascii_of_N (48 + n) else ascii_of_N (87 + n).

(** The value of a hex digit, either case; [None] for any other character. *)
Definition unhex (c : ascii) : option N :=
  let n := N_of_ascii c in
  if ((48 <=? n) && (n <=? 57))%N then Some (n - 48)%N
  else if ((97 <=? n) && (n <=? 102))%N then Some (n - 87)%N
  else if ((65 <=? n) && (n <=? 70))%N then Some (n - 55)%N
  else None.

(** [buf.toString("hex")]: two lower-case digits per byte. *)
Fixpoint toString_hex (buf : list byte) : string :=
  match buf with
  | [] => EmptyString
  | b :: rest =>
      String (hex_digit (Byte.to_N b / 16))
        (String (hex_digit (Byte.to_N b mod 16)) (toString_hex rest))
  end.

(** [Buffer.from(s, "hex")]: decodes pairs of digits and stops, without an
    error, at the first pair that is not hex or at a trailing single
    character. *)
Fixpoint Buffer_from_hex (s : string) : list byte :=
  match s with
  | String a (String b rest) =>
      match unhex a, unhex b with
      | Some hi, Some lo =>
          match Byte.of_N (16 * hi + lo) with
          | Some x => x :: Buffer_from_hex rest
          | None => []
          end
      | _, _ => []
      end
  | _ => []
  end.

Fixpoint bytes_eqb (a b : list byte) : bool :=
  match a, b with
  | [], [] => true
  | x :: a', y :: b' => Byte.eqb x y && bytes_eqb a' b'
  | _, _ => false
  end.

(** [crypto.timingSafeEqual(a, b)]: throws a RangeError when the byte lengths
    differ, otherwise tells whether the contents are equal.  (Its running
    time is not modelled.) *)
Definition timingSafeEqual (a b : list byte) : jsError + bool :=
  if Nat.eqb (List.length a) (List.length b) then inr (bytes_eqb a b)
  else inl ERR_CRYPTO_TIMING_SAFE_EQUAL_LENGTH.

(** [s.split(sep)] for a separator of one character: never empty. *)
Fixpoint split (sep : ascii) (s : string) : list string :=
  match s with
  | EmptyString => [EmptyString]
  | String c rest =>
      if Ascii.eqb c sep then EmptyString :: split sep rest
      else match split sep rest with
           | piece :: pieces => String c piece :: pieces
           | [] => [String c EmptyString]
           end
  end.

(** Membership of a character in a string. *)
Fixpoint occurs (c : ascii) (s : string) : bool :=
  match s with
  | EmptyString => false
  | String a rest => Ascii.eqb a c || occurs c rest
  end.

(* ================================================================== *)
(** ** Promises *)

(** The final state of a promise. *)
Inductive promise (A : Type) : Type :=
| Fulfilled (value : A)
| Rejected (reason : jsError)
| Pending.

Arguments Fulfilled {A} value.
Arguments Rejected {A} reason.
Arguments Pending {A}.

(** The outcome of [new Promise(executor)] once its callbacks have run: the
    state the promise reached, and the exceptions thrown inside a callback
    after the executor returned, which no promise catches (they reach the
    process as uncaught exceptions). *)
Record async (A : Type) : Type := mkAsync {
  settled : promise A;
  escaped : list jsError
}.

(* ================================================================== *)
(** ** The credential hasher *)

(** What the callback of [scrypt] receives: [(err, derivedKey)]. *)
Inductive scryptResult : Type :=
| ScryptError (err : jsError)
| DerivedKey (derivedKey : list byte).

Definition keyLength : nat := 32.

Definition dot : ascii := ascii_of_nat 46.

Section Hasher.

(** [crypto.scrypt(password, salt, keylen, callback)] with the default cost
    parameters, as a function of its arguments. *)
Variable scrypt : string -> string -> nat -> scryptResult.

(** [hash(password)].  [entropy] is what [randomBytes(16)] returned.  When
    scrypt reports an error the promise is rejected with it, and the
    callback goes on to read [derivedKey.toString] of [undefined]. *)
Definition hash (entropy : list byte) (password : string) : async string :=
  let salt := toString_hex entropy in
  match scrypt password salt keyLength with
  | ScryptError err => mkAsync (Rejected err) [ERR_UNDEFINED_PROPERTY]
  | DerivedKey derivedKey =>
      mkAsync (Fulfilled (salt ++ String dot (toString_hex derivedKey))) []
  end.

(** [compare(password, hash)].  The split and [Buffer.from] run inside the
    executor, so what they throw rejects the promise; [timingSafeEqual] runs
    inside the callback of scrypt, so what it throws escapes and the promise
    stays pending. *)
Definition compare (password : string) (hash : string) : async bool :=
  match split dot hash with
  | salt :: hashKey :: _ =>
      let hashKeyBuff := Buffer_from_hex hashKey in
      match scrypt password salt keyLength with
      | ScryptError err =>
          (* reject(err), then timingSafeEqual(hashKeyBuff, undefined) *)
          mkAsync (Rejected err)
            [mkError "TypeError"
               "The buf2 argument must be an instance of ArrayBuffer, Buffer, TypedArray, or DataView. Received undefined"
               "ERR_INVALID_ARG_TYPE" []]
      | DerivedKey derivedKey =>
          match timingSafeEqual hashKeyBuff derivedKey with
          | inr equal => mkAsync (Fulfilled equal) []
          | inl thrown => mkAsync Pending [thrown]
          end
      end
  | _ =>
      (* hashKey is undefined: Buffer.from(undefined, "hex") throws *)
      mkAsync (Rejected ERR_INVALID_ARG_TYPE) []
  end.

End Hasher.


(* ================================================================== *)
(** ** The credential payload and its schema *)

(** A JavaScript value, as far as the schema tells values apart (numbers are
    integers here: the schema accepts none). *)
Inductive jsValue : Type :=
| JUndefined
| JNull
| JBoolean (b : bool)
| JNumber (n : Z)
| JString (s : string)
| JObject (fields : list (string * jsValue)).

(** [obj[key]]: [undefined] when the object has no such property. *)
Fixpoint get (key : string) (fields : list (string * jsValue)) : jsValue :=
  match fields with
  | [] => JUndefined
  | (k, v) :: rest => if String.eqb k key then v else get key rest
  end.

Inductive payloadType : Type := login | signup.

Module Payload.
Record t : Type := make {
  email : string;
  password : string;
  fullName : option string;
  tocAccepted : option bool;
  type : payloadType
}.
End Payload.

(** The result of [safeParse]: the parsed data, or the names of the fields
    with an issue (what [error.flatten()] keys its field errors by; a value
    that is no object gives one form error). *)
Inductive safeParseResult : Type :=
| ParseSuccess (data : Payload.t)
| ParseFailure (flatten : list string).

(** [z.string()] *)
Definition z_string (field : string) (v : jsValue) : list string + string :=
  match v with JString s => inr s | _ => inl [field] end.

(** [z.string().optional()] *)
Definition z_string_optional (field : string) (v : jsValue)
  : list string + option string :=
  match v with
  | JUndefined => inr None
  | JString s => inr (Some s)
  | _ => inl [field]
  end.

(** [z.literal(true).optional()] *)
Definition z_literal_true_optional (field : string) (v : jsValue)
  : list string + option bool :=
  match v with
  | JUndefined => inr None
  | JBoolean true => inr (Some true)
  | _ => inl [field]
  end.

(** [z.enum(["login", "signup"])] *)
Definition z_enum_type (field : string) (v : jsValue)
  : list string + payloadType :=
  match v with
  | JString s =>
      if String.eqb s "login" then inr login
      else if String.eqb s "signup" then inr signup
      else inl [field]
  | _ => inl [field]
  end.

Definition issues {A : Type} (r : list string + A) : list string :=
  match r with inl l => l | inr _ => [] end.

(** [payloadSchema.safeParse(context)]: every field is checked and all issues
    are collected; keys the schema does not name are dropped. *)
Definition payloadSchema_safeParse (context : jsValue) : safeParseResult :=
  match context with
  | JObject fields =>
      let email := z_string "email" (get "email" fields) in
      let password := z_string "password" (get "password" fields) in
      let fullName := z_string_optional "fullName" (get "fullName" fields) in
      let tocAccepted :=
        z_literal_true_optional "tocAccepted" (get "tocAccepted" fields) in
      let type := z_enum_type "type" (get "type" fields) in
      match email, password, fullName, tocAccepted, type with
      | inr e, inr p, inr f, inr a, inr t =>
          ParseSuccess (Payload.make e p f a t)
      | _, _, _, _, _ =>
          ParseFailure (issues email ++ issues password ++ issues fullName
                        ++ issues tocAccepted ++ issues type)
      end
  | _ => ParseFailure ["formErrors"]
  end.

(* ================================================================== *)
(** ** The account store, the code store and the mailer *)

Module User.
Record t : Type := make {
  id : nat;
  email : string;
  password : option string;
  fullName : string;
  emailVerified : bool;
  isGoogleSignUp : bool
}.
End User.

Module VerificationCode.
Record t : Type := make {
  code : string;
  userId : nat;
  expires : Z
}.
End VerificationCode.

(** Modelled from the spec: the Prisma client of ./db/db.server and its schema
    are not among the sources.  The Account of the spec has a unique
    identifier, a unique email, a nullable password hash, a display name and
    the two flags; a VerificationCode belongs to one Account and has a code
    and an expiry.  Tables are lists of rows in insertion order. *)
Record Database : Type := mkDatabase {
  users : list User.t;
  verificationCodes : list VerificationCode.t;
  nextUserId : nat
}.

(** The world a request runs in: the database, the e-mails the mailer
    accepted, and the errors nothing handled (exceptions that escaped a
    callback, rejections of promises nobody awaits). *)
Record World : Type := mkWorld {
  database : Database;
  outbox : list (string * string);
  unhandled : list jsError
}.

(** How an [async] function comes to its end. [Hang]: it awaits a promise
    that never settles. *)
Inductive completion (A : Type) : Type :=
| Return (value : A)
| Throw (reason : jsError)
| Hang.

Arguments Return {A} value.
Arguments Throw {A} reason.
Arguments Hang {A}.

(** An [async] computation over the world. *)
Definition M (A : Type) : Type := World -> World * completion A.

Definition ret {A : Type} (a : A) : M A := fun w => (w, Return a).

Definition throw {A : Type} (e : jsError) : M A := fun w => (w, Throw e).

Definition bind {A B : Type} (m : M A) (f : A -> M B) : M B :=
  fun w =>
    match m w with
    | (w', Return a) => f a w'
    | (w', Throw e) => (w', Throw e)
    | (w', Hang) => (w', Hang)
    end.

Notation "x <- m ;; k" := (bind m (fun x => k))
  (at level 61, m at next level, right associativity).

(** [await p] *)
Definition await {A : Type} (p : async A) : M A :=
  fun w =>
    let w' := mkWorld (database w) (outbox w) (unhandled w ++ escaped p) in
    match settled p with
    | Fulfilled a => (w', Return a)
    | Rejected e => (w', Throw e)
    | Pending => (w', Hang)
    end.

(** A call whose promise is not awaited: its effects happen, the caller goes
    on, and a rejection is handled by nobody. *)
Definition detached {A : Type} (m : M A) : M unit :=
  fun w =>
    match m w with
    | (w', Return _) => (w', Return tt)
    | (w', Throw e) =>
        (mkWorld (database w') (outbox w') (unhandled w' ++ [e]), Return tt)
    | (w', Hang) => (w', Return tt)
    end.

Definition has_email (email : string) (u : User.t) : bool :=
  String.eqb (User.email u) email.

Definition belongs_to (userId : nat) (c : VerificationCode.t) : bool :=
  Nat.eqb (VerificationCode.userId c) userId.

(** What Prisma throws when an insert breaks a unique constraint. *)
Definition P2002 : jsError :=
  mkError "PrismaClientKnownRequestError"
    "Unique constraint failed on the fields: (email)" "P2002" [].

(** Modelled from the spec: [prisma.user.findFirst({ where: { email } })],
    the findByEmail of the Account Store. *)
Definition user_findFirst (email : string) : M (option User.t) :=
  fun w => (w, Return (find (has_email email) (users (database w)))).

(** The [data] of [prisma.user.create]; a column left out takes its default. *)
Record UserCreateInput : Type := mkUserCreateInput {
  data_email : string;
  data_password : option string;
  data_fullName : string;
  data_emailVerified : option bool;
  data_isGoogleSignUp : option bool
}.

Definition or_default (o : option bool) : bool :=
  match o with Some b => b | None => false end.

(** Modelled from the spec: [prisma.user.create({ data })], the create of the
    Account Store.  The email is unique: a second row with the same email is
    refused with the unique-constraint error of the database client. *)
Definition user_create (data : UserCreateInput) : M User.t :=
  fun w =>
    let db := database w in
    match find (has_email (data_email data)) (users db) with
    | Some _ => (w, Throw P2002)
    | None =>
        let u := User.make (nextUserId db) (data_email data)
                   (data_password data) (data_fullName data)
                   (or_default (data_emailVerified data))
                   (or_default (data_isGoogleSignUp data)) in
        (mkWorld
           (mkDatabase (users db ++ [u]) (verificationCodes db)
              (S (nextUserId db)))
           (outbox w) (unhandled w),
         Return u)
    end.

(** Modelled from the spec: [prisma.user.upsert({ where: { email }, create,
    update: {} })], the upsertByEmail of the Account Store: the row with that
    email as it is, or else the row created. *)
Definition user_upsert (email : string) (create : UserCreateInput) : M User.t :=
  fun w =>
    match find (has_email email) (users (database w)) with
    | Some u => (w, Return u)
    | None => user_create create w
    end.

(** Modelled from the spec: [verificationCode.deleteMany({ where: { userId } })],
    the deleteAllForAccount of the Verification Code Store. *)
Definition verificationCode_deleteMany (userId : nat) : M nat :=
  fun w =>
    let db := database w in
    let kept := filter (fun c => negb (belongs_to userId c))
                  (verificationCodes db) in
    (mkWorld (mkDatabase (users db) kept (nextUserId db))
       (outbox w) (unhandled w),
     Return (List.length (verificationCodes db) - List.length kept)).

(** Modelled from the spec: [verificationCode.create({ data })]. *)
Definition verificationCode_create (data : VerificationCode.t)
  : M VerificationCode.t :=
  fun w =>
    let db := database w in
    (mkWorld
       (mkDatabase (users db) (verificationCodes db ++ [data]) (nextUserId db))
       (outbox w) (unhandled w),
     Return data).

(** Modelled from the spec: [prisma.$transaction(async (trx) => ...)], the
    transactional composition of the stores: the writes of the body are kept
    when it returns and undone when it does not. *)
Definition transaction {A : Type} (body : M A) : M A :=
  fun w =>
    match body w with
    | (w', Return a) => (w', Return a)
    | (w', Throw e) => (mkWorld (database w) (outbox w') (unhandled w'), Throw e)
    | (w', Hang) => (mkWorld (database w) (outbox w') (unhandled w'), Hang)
    end.

(** What becomes of one call of the mailer: the message is accepted, the
    mailer answers with a failure, or the call itself throws. *)
Inductive delivery : Type :=
| Delivered
| Refused
| SendThrew (reason : jsError).

(** Modelled from the spec: [resend.emails.send({ from, to, subject, react })]
    of ./email/resend.server, the send of the Mailer (success or failure);
    as any awaited call it may also reject. *)
Definition resend_emails_send (d : delivery) (to validationCode : string)
  : M unit :=
  fun w =>
    match d with
    | Delivered =>
        (mkWorld (database w) (outbox w ++ [(to, validationCode)])
           (unhandled w),
         Return tt)
    | Refused => (w, Return tt)
    | SendThrew e => (w, Throw e)
    end.

(** What one request draws from outside: the bytes of [randomBytes(16)], the
    string of [generateRandomString(8, "0123456789")], the clock
    [Date.now()], and the fate of the e-mail. *)
Record Env : Type := mkEnv {
  randomBytes16 : list byte;
  generatedCode : string;
  dateNow : Z;
  mail : delivery
}.

(* ================================================================== *)
(** ** The verification code issuer *)

Definition sendVerificationCode (env : Env) (user : User.t) : M unit :=
  let code := generatedCode env in
  _ <- transaction (
         _ <- verificationCode_deleteMany (User.id user) ;;
         _ <- verificationCode_create
                (VerificationCode.make code (User.id user)
                   (dateNow env + 1000 * 60 * 20)%Z) ;;
         resend_emails_send (mail env) (User.email user) code) ;;
  ret tt.

(* ================================================================== *)
(** ** The form strategy *)

(** [user?.password || ""] *)
Definition password_or_empty (p : option string) : string :=
  match p with
  | Some (String c rest) => String c rest
  | _ => EmptyString
  end.
Section FormStrategy.

Variable scrypt : string -> string -> nat -> scryptResult.

Definition formStrategy (env : Env) (context : jsValue) : M User.t :=
  match payloadSchema_safeParse context with
  | ParseSuccess data =>
      match Payload.type data with
      | login =>
          user <- user_findFirst (Payload.email data) ;;
          match user with
          | Some u =>
              isPasswordCorrect <-
                await (compare scrypt (Payload.password data)
                         (password_or_empty (User.password u))) ;;
              if isPasswordCorrect : bool then ret u
              else throw (Error "INVALID_PASSWORD")
          | None => throw (Error "Login failed")
          end
      | signup =>
          hashedPassword <-
            await (hash scrypt (randomBytes16 env) (Payload.password data)) ;;
          user <- user_create
                    (mkUserCreateInput (Payload.email data)
                       (Some hashedPassword) "test" None None) ;;
          _ <- detached (sendVerificationCode env user) ;;
          ret user
      end
  | ParseFailure flatten => throw (ErrorWithCause "Parsing Failed" flatten)
  end.

End FormStrategy.

(* ================================================================== *)
(** ** The Google strategy *)

(** The profile the provider hands over: the values of [profile.emails] and
    [profile.displayName]. *)
Record Profile : Type := mkProfile {
  emails : list string;
  displayName : string
}.

Definition googleStrategy (profile : Profile) : M User.t :=
  match emails profile with
  | [] => throw ERR_UNDEFINED_PROPERTY
  | email0 :: _ =>
      user_upsert email0
        (mkUserCreateInput email0 None (displayName profile)
           (Some true) (Some true))
  end.

(* ================================================================== *)
(** ** Sample inputs *)

(** A stand-in for scrypt on which the service can be run: the bytes of the
    password and of the salt, cut or zero-padded to the length asked for.
    (It is no key-derivation function; it shares with scrypt that the key is
    a function of password and salt and has the length asked for.) *)
Definition demo_scrypt (password salt : string) (keylen : nat) : scryptResult :=
  let material :=
    (list_byte_of_string password ++ list_byte_of_string salt)%list in
  DerivedKey (firstn keylen (material ++ repeat x00 keylen)%list).


Definition demo_entropy : list byte :=
  [x00; x01; x02; x03; x04; x05; x06; x07;
   x08; x09; x0a; x0b; x0c; xde; xad; xff].

Definition empty_world : World := mkWorld (mkDatabase [] [] 1) [] [].

Definition demo_env (d : delivery) : Env :=
  mkEnv demo_entropy "12345678" 1700000000000 d.

(** The context an action passes to the authenticator. *)
Definition credentials (email password type : string) : jsValue :=
  JObject [("email", JString email); ("password", JString password);
           ("type", JString type)].

Definition alice : User.t :=
  User.make 1 "alice@example.com" None "Alice" true true.

Definition bob : User.t :=
  User.make 2 "bob@example.com"
    (Some "00.6f70656e736573616d6530300000000000000000000000000000000000000000")
    "test" false false.

(** A world with a Google account (alice), an account with a password (bob,
    whose password is opensesame under [demo_scrypt]) and one code pending
    for each. *)
Definition demo_world : World :=
  mkWorld
    (mkDatabase [alice; bob]
       [VerificationCode.make "00000001" 1 1000;
        VerificationCode.make "00000002" 2 2000;
        VerificationCode.make "00000003" 1 3000]
       3)
    [] [].

(** The outcome of a computation, and the error it threw, if any. *)
Definition outcome {A : Type} (r : World * completion A) : completion A :=
  snd r.

Definition world_after {A : Type} (r : World * completion A) : World :=
  fst r.

(* ================================================================== *)
(** * Properties *)

Unset Implicit Arguments.

(** ** The hex encoding, [split] and buffers *)

Lemma hex_pair (b : byte) :
  unhex (hex_digit (Byte.to_N b / 16)) = Some (Byte.to_N b / 16)%N /\
  unhex (hex_digit (Byte.to_N b mod 16)) = Some (Byte.to_N b mod 16)%N /\
  Byte.of_N (16 * (Byte.to_N b / 16) + Byte.to_N b mod 16) = Some b.
Proof. destruct b; repeat split; vm_compute; reflexivity. Qed.

Lemma hex_pair_not_dot (b : byte) :
  Ascii.eqb (hex_digit (Byte.to_N b / 16)) dot = false /\
  Ascii.eqb (hex_digit (Byte.to_N b mod 16)) dot = false.
Proof. destruct b; split; vm_compute; reflexivity. Qed.

Lemma decode_encode (buf : list byte) :
  Buffer_from_hex (toString_hex buf) = buf.
Proof.
  induction buf as [|b rest IH]; [reflexivity|].
  cbn [toString_hex Buffer_from_hex].
  destruct (hex_pair b) as (Hhi & Hlo & Hb).
  rewrite Hhi, Hlo, Hb, IH. reflexivity.
Qed.

Lemma hex_has_no_dot (buf : list byte) :
  occurs dot (toString_hex buf) = false.
Proof.
  induction buf as [|b rest IH]; [reflexivity|].
  cbn [toString_hex occurs].
  destruct (hex_pair_not_dot b) as (Hhi & Hlo).
  rewrite Hhi, Hlo, IH. reflexivity.
Qed.

Lemma split_without_sep (sep : ascii) (s : string) :
  occurs sep s = false -> split sep s = [s].
Proof.
  induction s as [|c rest IH]; [reflexivity|].
  cbn [occurs split]. intros H.
  apply orb_false_iff in H. destruct H as (Hc & Hrest).
  rewrite Hc, (IH Hrest). reflexivity.
Qed.

Lemma split_at_first_sep (sep : ascii) (a b : string) :
  occurs sep a = false ->
  split sep (a ++ String sep b) = a :: split sep b.
Proof.
  induction a as [|c rest IH]; cbn [occurs split String.append].
  - intros _. rewrite Ascii.eqb_refl. reflexivity.
  - intros H. apply orb_false_iff in H. destruct H as (Hc & Hrest).
    rewrite Hc, (IH Hrest). reflexivity.
Qed.

Lemma bytes_eqb_refl (a : list byte) : bytes_eqb a a = true.
Proof.
  induction a as [|x a IH]; [reflexivity|].
  cbn [bytes_eqb]. rewrite IH, (Byte.byte_dec_lb (eq_refl x)). reflexivity.
Qed.

Lemma bytes_eqb_true (a b : list byte) : bytes_eqb a b = true -> a = b.
Proof.
  revert b. induction a as [|x a IH]; intros [|y b]; cbn [bytes_eqb];
    try discriminate; [reflexivity|].
  intros H. apply andb_true_iff in H. destruct H as (Hx & Hrest).
  apply Byte.byte_dec_bl in Hx. rewrite Hx, (IH _ Hrest). reflexivity.
Qed.

Lemma demo_scrypt_keylen (password salt : string) (keylen : nat)
    (derivedKey : list byte) :
  demo_scrypt password salt keylen = DerivedKey derivedKey ->
  List.length derivedKey = keylen.
Proof.
  unfold demo_scrypt. intros H. injection H as <-.
  apply firstn_length_le.
  rewrite length_app, repeat_length. apply Nat.le_add_l.
Qed.

(** ** Worlds *)

Lemma world_eta (w : World) :
  mkWorld (database w) (outbox w) (unhandled w) = w.
Proof. destruct w; reflexivity. Qed.

Lemma database_eta (db : Database) :
  mkDatabase (users db) (verificationCodes db) (nextUserId db) = db.
Proof. destruct db; reflexivity. Qed.

Lemma await_quiet (A : Type) (p : promise A) (w : World) :
  await (mkAsync p []) w =
  (w, match p with
      | Fulfilled a => Return a
      | Rejected e => Throw e
      | Pending => Hang
      end).
Proof.
  unfold await. cbn [settled escaped].
  rewrite app_nil_r, world_eta. destruct p; reflexivity.
Qed.

Lemma find_has_email_last (email : string) (us : list User.t) (u : User.t) :
  find (has_email email) us = None ->
  User.email u = email ->
  find (has_email email) (us ++ [u]) = Some u.
Proof.
  intros Hnone Hu. induction us as [|x us IH]; cbn [find app] in *.
  - unfold has_email. rewrite Hu, String.eqb_refl. reflexivity.
  - destruct (has_email email x); [discriminate|]. apply IH, Hnone.
Qed.

Section Properties.

Variable scrypt : string -> string -> nat -> scryptResult.

(** A key that is derived has the length that was asked for. *)
Hypothesis scrypt_keylen :
  forall password salt keylen derivedKey,
    scrypt password salt keylen = DerivedKey derivedKey ->
    List.length derivedKey = keylen.

(** ** The hasher *)

(** What [compare] does with a hash of the form [salt.key]. *)
Lemma compare_well_formed (password salt key : string) :
  occurs dot salt = false ->
  occurs dot key = false ->
  compare scrypt password (salt ++ String dot key) =
  match scrypt password salt keyLength with
  | ScryptError err =>
      mkAsync (Rejected err)
        [mkError "TypeError"
           "The buf2 argument must be an instance of ArrayBuffer, Buffer, TypedArray, or DataView. Received undefined"
           "ERR_INVALID_ARG_TYPE" []]
  | DerivedKey derivedKey =>
      match timingSafeEqual (Buffer_from_hex key) derivedKey with
      | inr equal => mkAsync (Fulfilled equal) []
      | inl thrown => mkAsync Pending [thrown]
      end
  end.
Proof.
  intros Hsalt Hkey. unfold compare.
  rewrite (split_at_first_sep _ _ _ Hsalt), (split_without_sep _ _ Hkey).
  reflexivity.
Qed.

(** What [compare] does with a hash that has no separator. *)
Lemma compare_no_separator (password hash : string) :
  occurs dot hash = false ->
  compare scrypt password hash = mkAsync (Rejected ERR_INVALID_ARG_TYPE) [].
Proof.
  intros H. unfold compare. rewrite (split_without_sep _ _ H). reflexivity.
Qed.

(** [compare] accepts the string [hash] makes of the key scrypt derives. *)
Lemma compare_own_hash (password : string) (entropy derivedKey : list byte) :
  scrypt password (toString_hex entropy) keyLength = DerivedKey derivedKey ->
  compare scrypt password
    (toString_hex entropy ++ String dot (toString_hex derivedKey))
  = mkAsync (Fulfilled true) [].
Proof.
  intros Hkey.
  rewrite compare_well_formed by apply hex_has_no_dot.
  rewrite Hkey, decode_encode.
  unfold timingSafeEqual. rewrite Nat.eqb_refl, bytes_eqb_refl.
  reflexivity.
Qed.

(** C1. Round trip of the hasher: whenever scrypt derives a key for the
    password and the salt drawn by [hash], [hash] fulfils with
    [salt.hex(key)] and [compare] of the same password with that string
    fulfils with [true], no exception escaping.  The password may be any
    string, the empty one included, and the salt any 16 bytes (or any other
    number of them). *)
Theorem hash_compare_round_trip (entropy : list byte) (p : string)
    (derivedKey : list byte) :
  scrypt p (toString_hex entropy) keyLength = DerivedKey derivedKey ->
  exists h,
    hash scrypt entropy p = mkAsync (Fulfilled h) [] /\
    compare scrypt p h = mkAsync (Fulfilled true) [].
Proof.
  intros Hkey.
  exists (toString_hex entropy ++ String dot (toString_hex derivedKey)).
  split.
  - unfold hash. rewrite Hkey. reflexivity.
  - apply compare_own_hash, Hkey.
Qed.

(** C2. What [compare] does with a malformed stored hash, for every
    password.  Without a separator the promise is rejected with the
    TypeError of [Buffer.from(undefined, "hex")].  With a separator and a key
    part that does not decode to 32 bytes: when scrypt derives a key, the
    RangeError of [timingSafeEqual] is thrown inside the callback of scrypt,
    where nothing catches it, and the promise never settles; when scrypt
    reports an error, the promise is rejected with it and a TypeError is
    thrown in the callback.  In none of these cases is the promise fulfilled,
    with [false] or otherwise.  What counts is the number of bytes decoded,
    not the text: a key part that decodes to 32 bytes, whatever follows its
    64 hex digits, is compared with the derived key like any other and
    fulfils with [true] or [false]. *)
Theorem compare_malformed_hash (password hash : string) :
  (occurs dot hash = false ->
   compare scrypt password hash = mkAsync (Rejected ERR_INVALID_ARG_TYPE) [])
  /\
  (forall salt hashKey rest derivedKey,
     split dot hash = salt :: hashKey :: rest ->
     scrypt password salt keyLength = DerivedKey derivedKey ->
     List.length (Buffer_from_hex hashKey) <> 32 ->
     compare scrypt password hash =
     mkAsync Pending [ERR_CRYPTO_TIMING_SAFE_EQUAL_LENGTH])
  /\
  (forall salt hashKey rest err,
     split dot hash = salt :: hashKey :: rest ->
     scrypt password salt keyLength = ScryptError err ->
     exists uncaught,
       compare scrypt password hash = mkAsync (Rejected err) [uncaught] /\
       err_name uncaught = "TypeError" /\
       err_code uncaught = "ERR_INVALID_ARG_TYPE")
  /\
  (occurs dot hash = false \/
   (exists salt hashKey rest,
      split dot hash = salt :: hashKey :: rest /\
      List.length (Buffer_from_hex hashKey) <> 32) ->
   forall answer,
     settled (compare scrypt password hash) <> Fulfilled answer)
  /\
  (forall salt hashKey rest derivedKey,
     split dot hash = salt :: hashKey :: rest ->
     scrypt password salt keyLength = DerivedKey derivedKey ->
     List.length (Buffer_from_hex hashKey) = 32 ->
     compare scrypt password hash =
     mkAsync (Fulfilled (bytes_eqb (Buffer_from_hex hashKey) derivedKey)) []).
Proof.
  split; [apply compare_no_separator|]. split; [|split; [|split]].
  - intros salt hashKey rest derivedKey Hsplit Hkey Hlen.
    unfold compare. rewrite Hsplit, Hkey. unfold timingSafeEqual.
    rewrite (scrypt_keylen _ _ _ _ Hkey).
    destruct (Nat.eqb_spec (List.length (Buffer_from_hex hashKey)) keyLength)
      as [Heq|_]; [contradiction|reflexivity].
  - intros salt hashKey rest err Hsplit Herr.
    unfold compare. rewrite Hsplit, Herr.
    eexists. split; [reflexivity|]. split; reflexivity.
  - intros [Hnone|(salt & hashKey & rest & Hsplit & Hlen)] answer.
    + rewrite (compare_no_separator _ _ Hnone). discriminate.
    + unfold compare. rewrite Hsplit.
      destruct (scrypt password salt keyLength) as [err|derivedKey] eqn:Hkey;
        [discriminate|].
      unfold timingSafeEqual. rewrite (scrypt_keylen _ _ _ _ Hkey).
      destruct (Nat.eqb_spec (List.length (Buffer_from_hex hashKey)) keyLength)
        as [Heq|_]; [contradiction|discriminate].
  - intros salt hashKey rest derivedKey Hsplit Hkey Hlen.
    unfold compare. rewrite Hsplit, Hkey. unfold timingSafeEqual.
    rewrite (scrypt_keylen _ _ _ _ Hkey), Hlen. reflexivity.
Qed.

(** ** The form strategy *)

Lemma password_or_empty_Some (s : string) : password_or_empty (Some s) = s.
Proof. destruct s; reflexivity. Qed.

(** The login branch, once the payload is validated. *)
Lemma formStrategy_login (env : Env) (context : jsValue) (data : Payload.t)
    (w : World) :
  payloadSchema_safeParse context = ParseSuccess data ->
  Payload.type data = login ->
  formStrategy scrypt env context w =
  match find (has_email (Payload.email data)) (users (database w)) with
  | Some u =>
      (isPasswordCorrect <-
         await (compare scrypt (Payload.password data)
                  (password_or_empty (User.password u))) ;;
       if isPasswordCorrect : bool then ret u
       else throw (Error "INVALID_PASSWORD")) w
  | None => (w, Throw (Error "Login failed"))
  end.
Proof.
  intros Hparse Htype. unfold formStrategy. rewrite Hparse, Htype.
  unfold bind at 1, user_findFirst.
  destruct (find (has_email (Payload.email data)) (users (database w)));
    reflexivity.
Qed.

(** Login against a stored hash without separator (in particular against an
    account without password) throws the TypeError of [compare]. *)
Lemma login_no_separator (env : Env) (context : jsValue) (data : Payload.t)
    (w : World) (u : User.t) :
  payloadSchema_safeParse context = ParseSuccess data ->
  Payload.type data = login ->
  find (has_email (Payload.email data)) (users (database w)) = Some u ->
  occurs dot (password_or_empty (User.password u)) = false ->
  formStrategy scrypt env context w = (w, Throw ERR_INVALID_ARG_TYPE).
Proof.
  intros Hparse Htype Hfind Hdot.
  rewrite (formStrategy_login env _ _ w Hparse Htype), Hfind.
  unfold bind. rewrite (compare_no_separator _ _ Hdot), await_quiet.
  reflexivity.
Qed.

(** The signup branch, once the payload is validated and the password is
    hashed. *)
Lemma formStrategy_signup (env : Env) (context : jsValue) (data : Payload.t)
    (w : World) (derivedKey : list byte) :
  payloadSchema_safeParse context = ParseSuccess data ->
  Payload.type data = signup ->
  scrypt (Payload.password data) (toString_hex (randomBytes16 env)) keyLength
    = DerivedKey derivedKey ->
  formStrategy scrypt env context w =
  (user <- user_create
             (mkUserCreateInput (Payload.email data)
                (Some (toString_hex (randomBytes16 env)
                       ++ String dot (toString_hex derivedKey)))
                "test" None None) ;;
   _ <- detached (sendVerificationCode env user) ;;
   ret user) w.
Proof.
  intros Hparse Htype Hkey. unfold formStrategy. rewrite Hparse, Htype.
  unfold bind at 1. unfold hash. rewrite Hkey, await_quiet. reflexivity.
Qed.

(** C3. The two failures of a validated login are told apart by their
    message: with no account for the email the strategy throws
    [Error("Login failed")], with an account whose stored hash does not match
    the password it throws [Error("INVALID_PASSWORD")]. *)
Theorem login_failures_differ (env : Env) (context : jsValue)
    (data : Payload.t) (w1 w2 : World) (u : User.t) :
  payloadSchema_safeParse context = ParseSuccess data ->
  Payload.type data = login ->
  find (has_email (Payload.email data)) (users (database w1)) = None ->
  find (has_email (Payload.email data)) (users (database w2)) = Some u ->
  settled (compare scrypt (Payload.password data)
             (password_or_empty (User.password u))) = Fulfilled false ->
  outcome (formStrategy scrypt env context w1) = Throw (Error "Login failed")
  /\ outcome (formStrategy scrypt env context w2)
     = Throw (Error "INVALID_PASSWORD")
  /\ error_shape (Error "Login failed")
     <> error_shape (Error "INVALID_PASSWORD").
Proof.
  intros Hparse Htype Hnone Hsome Hwrong. repeat split.
  - rewrite (formStrategy_login env _ _ w1 Hparse Htype), Hnone. reflexivity.
  - rewrite (formStrategy_login env _ _ w2 Hparse Htype), Hsome.
    unfold bind, await. rewrite Hwrong. reflexivity.
  - discriminate.
Qed.

(** A call that is not awaited always lets the caller go on, and leaves the
    database as the call left it. *)
Lemma detached_run (A : Type) (m : M A) (w : World) :
  outcome (detached m w) = Return tt /\
  database (world_after (detached m w)) = database (world_after (m w)).
Proof.
  unfold detached, outcome, world_after.
  destruct (m w) as [w' [a|e|]]; split; reflexivity.
Qed.

(** The issuer, by the fate of the e-mail. *)
Lemma sendVerificationCode_run (env : Env) (user : User.t) (w : World) :
  sendVerificationCode env user w =
  let db := database w in
  let codes :=
    (filter (fun c => negb (belongs_to (User.id user) c))
       (verificationCodes db)
     ++ [VerificationCode.make (generatedCode env) (User.id user)
           (dateNow env + 1000 * 60 * 20)%Z])%list in
  match mail env with
  | Delivered =>
      (mkWorld (mkDatabase (users db) codes (nextUserId db))
         (outbox w ++ [(User.email user, generatedCode env)]) (unhandled w),
       Return tt)
  | Refused =>
      (mkWorld (mkDatabase (users db) codes (nextUserId db))
         (outbox w) (unhandled w),
       Return tt)
  | SendThrew e => (w, Throw e)
  end.
Proof.
  unfold sendVerificationCode, transaction, bind, verificationCode_deleteMany,
    verificationCode_create, resend_emails_send, ret.
  destruct (mail env); cbn; try reflexivity.
  rewrite world_eta. reflexivity.
Qed.

Lemma sendVerificationCode_users (env : Env) (user : User.t) (w : World) :
  users (database (world_after (sendVerificationCode env user w)))
  = users (database w).
Proof.
  rewrite sendVerificationCode_run. destruct (mail env); reflexivity.
Qed.

(** What a signup that reaches the store does when the email is free. *)
Lemma signup_creates (env : Env) (w : World) (data : UserCreateInput) :
  find (has_email (data_email data)) (users (database w)) = None ->
  exists w',
    (user <- user_create data ;;
     _ <- detached (sendVerificationCode env user) ;;
     ret user) w
    = (w', Return (User.make (nextUserId (database w)) (data_email data)
                     (data_password data) (data_fullName data)
                     (or_default (data_emailVerified data))
                     (or_default (data_isGoogleSignUp data))))
    /\ users (database w')
       = (users (database w)
          ++ [User.make (nextUserId (database w)) (data_email data)
                (data_password data) (data_fullName data)
                (or_default (data_emailVerified data))
                (or_default (data_isGoogleSignUp data))])%list
    /\ nextUserId (database w') = S (nextUserId (database w)).
Proof.
  intros Hfree.
  set (u := User.make (nextUserId (database w)) (data_email data)
              (data_password data) (data_fullName data)
              (or_default (data_emailVerified data))
              (or_default (data_isGoogleSignUp data))).
  set (w1 := mkWorld
               (mkDatabase (users (database w) ++ [u])
                  (verificationCodes (database w))
                  (S (nextUserId (database w))))
               (outbox w) (unhandled w)).
  assert (Hcreate : user_create data w = (w1, Return u)).
  { unfold user_create. rewrite Hfree. reflexivity. }
  exists (world_after (detached (sendVerificationCode env u) w1)).
  destruct (detached_run _ (sendVerificationCode env u) w1) as (Hret & Hdb).
  unfold bind at 1. rewrite Hcreate. unfold bind, ret.
  unfold outcome, world_after in *.
  destruct (detached (sendVerificationCode env u) w1) as [w2 c].
  cbn [fst snd] in *. subst c. rewrite Hdb.
  rewrite sendVerificationCode_run. unfold world_after.
  destruct (mail env); repeat split; reflexivity.
Qed.

(** C4. An account created by the Google strategy has no password, and a
    login with its email, whatever the password, does not return it: the
    strategy calls [compare] with the empty string as stored hash, which
    rejects with a TypeError, and the strategy throws it. *)
Theorem google_account_not_accepted (env : Env) (profile : Profile)
    (email : string) (others : list string) (context : jsValue)
    (data : Payload.t) (w : World) :
  emails profile = email :: others ->
  find (has_email email) (users (database w)) = None ->
  payloadSchema_safeParse context = ParseSuccess data ->
  Payload.type data = login ->
  Payload.email data = email ->
  exists u w',
    googleStrategy profile w = (w', Return u) /\
    User.password u = None /\
    formStrategy scrypt env context w' = (w', Throw ERR_INVALID_ARG_TYPE).
Proof.
  intros Hemails Hfree Hparse Htype Hemail.
  unfold googleStrategy, user_upsert, user_create. rewrite Hemails.
  cbn [data_email]. rewrite Hfree.
  eexists. eexists. split; [reflexivity|]. split; [reflexivity|].
  apply (login_no_separator env context data) with
    (u := User.make (nextUserId (database w)) email None
            (displayName profile) true true);
    [assumption|assumption| |reflexivity].
  rewrite Hemail. cbn [database users].
  apply find_has_email_last; [assumption|reflexivity].
Qed.

(** C5. A signup with an email that has an account throws what the store
    throws, the unique-constraint error of the database client (code P2002),
    and leaves the world as it was: no ConflictError is raised anywhere, and
    no row is added. *)
Theorem duplicate_signup_throws_store_error (env : Env) (context : jsValue)
    (data : Payload.t) (w : World) (u : User.t) (derivedKey : list byte) :
  payloadSchema_safeParse context = ParseSuccess data ->
  Payload.type data = signup ->
  find (has_email (Payload.email data)) (users (database w)) = Some u ->
  scrypt (Payload.password data) (toString_hex (randomBytes16 env)) keyLength
    = DerivedKey derivedKey ->
  formStrategy scrypt env context w = (w, Throw P2002).
Proof.
  intros Hparse Htype Htaken Hkey.
  rewrite (formStrategy_signup env _ _ w _ Hparse Htype Hkey).
  unfold bind at 1. unfold user_create. cbn [data_email].
  rewrite Htaken. reflexivity.
Qed.

(** C10. A signup that succeeds stores and returns an account whose display
    name is the constant test, whatever [fullName] the payload carries. *)
Theorem signup_display_name_is_test (env : Env) (context : jsValue)
    (data : Payload.t) (w : World) (derivedKey : list byte) :
  payloadSchema_safeParse context = ParseSuccess data ->
  Payload.type data = signup ->
  find (has_email (Payload.email data)) (users (database w)) = None ->
  scrypt (Payload.password data) (toString_hex (randomBytes16 env)) keyLength
    = DerivedKey derivedKey ->
  exists u w',
    formStrategy scrypt env context w = (w', Return u) /\
    User.fullName u = "test" /\
    users (database w') = (users (database w) ++ [u])%list.
Proof.
  intros Hparse Htype Hfree Hkey.
  rewrite (formStrategy_signup env _ _ w _ Hparse Htype Hkey).
  destruct (signup_creates env w
              (mkUserCreateInput (Payload.email data)
                 (Some (toString_hex (randomBytes16 env)
                        ++ String dot (toString_hex derivedKey)))
                 "test" None None) Hfree) as (w' & Hrun & Husers & _).
  eexists. exists w'. split; [exact Hrun|]. split; [reflexivity|exact Husers].
Qed.

(** C6. The schema accepts the empty password, and both branches go on with
    it: a signup hashes it and stores the hash, and a login is checked by
    [compare] against the stored hash, so that an account signed up with the
    empty password logs in with it. *)
Theorem empty_password_passes_validation
    (fields : list (string * jsValue)) (email : string)
    (fullName : option string) (tocAccepted : option bool)
    (type : payloadType) :
  get "email" fields = JString email ->
  get "password" fields = JString EmptyString ->
  z_string_optional "fullName" (get "fullName" fields) = inr fullName ->
  z_literal_true_optional "tocAccepted" (get "tocAccepted" fields)
    = inr tocAccepted ->
  z_enum_type "type" (get "type" fields) = inr type ->
  payloadSchema_safeParse (JObject fields)
    = ParseSuccess (Payload.make email EmptyString fullName tocAccepted type)
  /\ (type = signup ->
      forall env w derivedKey,
        find (has_email email) (users (database w)) = None ->
        scrypt EmptyString (toString_hex (randomBytes16 env)) keyLength
          = DerivedKey derivedKey ->
        exists h u w',
          hash scrypt (randomBytes16 env) EmptyString
            = mkAsync (Fulfilled h) [] /\
          formStrategy scrypt env (JObject fields) w = (w', Return u) /\
          User.password u = Some h)
  /\ (type = login ->
      forall env w u entropy derivedKey,
        find (has_email email) (users (database w)) = Some u ->
        User.password u
          = Some (toString_hex entropy ++ String dot (toString_hex derivedKey)) ->
        scrypt EmptyString (toString_hex entropy) keyLength
          = DerivedKey derivedKey ->
        formStrategy scrypt env (JObject fields) w = (w, Return u)).
Proof.
  intros Hemail Hpassword HfullName Htoc Htype.
  assert (Hparse : payloadSchema_safeParse (JObject fields)
                   = ParseSuccess
                       (Payload.make email EmptyString fullName tocAccepted
                          type)).
  { unfold payloadSchema_safeParse.
    rewrite Hemail, Hpassword, HfullName, Htoc, Htype. reflexivity. }
  split; [exact Hparse|]. split.
  - intros -> env w derivedKey Hfree Hkey.
    exists (toString_hex (randomBytes16 env)
            ++ String dot (toString_hex derivedKey)).
    rewrite (formStrategy_signup env _ _ w _ Hparse eq_refl Hkey).
    destruct (signup_creates env w
                (mkUserCreateInput email
                   (Some (toString_hex (randomBytes16 env)
                          ++ String dot (toString_hex derivedKey)))
                   "test" None None) Hfree) as (w' & Hrun & _).
    eexists. exists w'. split; [|split; [exact Hrun|reflexivity]].
    unfold hash. rewrite Hkey. reflexivity.
  - intros -> env w u entropy derivedKey Hfind Hstored Hkey.
    rewrite (formStrategy_login env _ _ w Hparse eq_refl).
    cbn [Payload.email Payload.password]. rewrite Hfind, Hstored.
    rewrite password_or_empty_Some. unfold bind.
    rewrite (compare_own_hash _ _ _ Hkey), await_quiet. reflexivity.
Qed.

End Properties.

(** ** The verification code issuer *)

Lemma filter_after_delete (A : Type) (f : A -> bool) (l : list A) :
  filter f (filter (fun c => negb (f c)) l) = [].
Proof.
  induction l as [|x l IH]; [reflexivity|].
  cbn [filter]. destruct (f x) eqn:Hx; cbn [negb filter]; [exact IH|].
  rewrite Hx. exact IH.
Qed.

Lemma filter_others_after_delete (A : Type) (f g : A -> bool) (l : list A) :
  (forall x, g x = true -> f x = false) ->
  filter g (filter (fun c => negb (f c)) l) = filter g l.
Proof.
  intros Hdisjoint. induction l as [|x l IH]; [reflexivity|].
  cbn [filter]. destruct (f x) eqn:Hf; cbn [negb filter].
  - destruct (g x) eqn:Hg; [|exact IH].
    rewrite (Hdisjoint _ Hg) in Hf. discriminate.
  - rewrite IH. reflexivity.
Qed.

(** After an issuance that went through, the codes of the account are the
    one just issued. *)
Lemma issued_code_alone (env : Env) (user : User.t) (w : World) :
  (forall e, mail env <> SendThrew e) ->
  outcome (sendVerificationCode env user w) = Return tt /\
  filter (belongs_to (User.id user))
    (verificationCodes
       (database (world_after (sendVerificationCode env user w))))
  = [VerificationCode.make (generatedCode env) (User.id user)
       (dateNow env + 1200000)%Z].
Proof.
  intros Hsent. rewrite sendVerificationCode_run.
  destruct (mail env) as [| |e]; [| |exfalso; exact (Hsent e eq_refl)];
    cbn [outcome world_after fst snd database verificationCodes];
    (split; [reflexivity|]);
    rewrite filter_app, filter_after_delete; cbn [filter app];
    unfold belongs_to; cbn [VerificationCode.userId];
    rewrite Nat.eqb_refl; reflexivity.
Qed.

(** C7. What a failing delivery does to the code depends on how it fails.
    When the mailer answers with a failure, the code just created stays
    stored (and the older codes of the account are gone).  When the call of
    the mailer throws, the transaction it is awaited in is rolled back: the
    issuer rejects with that error and the store is as before, without the
    new code and with the older ones. *)
Theorem delivery_failure_and_persistence (env : Env) (user : User.t)
    (w : World) :
  (mail env = Refused ->
   sendVerificationCode env user w
   = (mkWorld
        (mkDatabase (users (database w))
           (filter (fun c => negb (belongs_to (User.id user) c))
              (verificationCodes (database w))
            ++ [VerificationCode.make (generatedCode env) (User.id user)
                  (dateNow env + 1200000)%Z])
           (nextUserId (database w)))
        (outbox w) (unhandled w),
      Return tt))
  /\
  (forall e, mail env = SendThrew e ->
   sendVerificationCode env user w = (w, Throw e)).
Proof.
  rewrite sendVerificationCode_run. split.
  - intros ->. reflexivity.
  - intros e ->. reflexivity.
Qed.

(** C8. After an issuance that went through, exactly one code is stored for
    the account, the one just issued, whatever was stored before; so also
    after a second issuance following a first. *)
Theorem one_active_code (env1 env2 : Env) (user : User.t) (w : World) :
  (forall e, mail env1 <> SendThrew e) ->
  (forall e, mail env2 <> SendThrew e) ->
  exists w1 w2,
    sendVerificationCode env1 user w = (w1, Return tt) /\
    filter (belongs_to (User.id user)) (verificationCodes (database w1))
    = [VerificationCode.make (generatedCode env1) (User.id user)
         (dateNow env1 + 1200000)%Z] /\
    sendVerificationCode env2 user w1 = (w2, Return tt) /\
    filter (belongs_to (User.id user)) (verificationCodes (database w2))
    = [VerificationCode.make (generatedCode env2) (User.id user)
         (dateNow env2 + 1200000)%Z].
Proof.
  intros Hsent1 Hsent2.
  destruct (issued_code_alone env1 user w Hsent1) as (Hret1 & Hcodes1).
  destruct (sendVerificationCode env1 user w) as [w1 c1] eqn:Hrun1.
  cbn [outcome world_after fst snd] in *. subst c1.
  destruct (issued_code_alone env2 user w1 Hsent2) as (Hret2 & Hcodes2).
  destruct (sendVerificationCode env2 user w1) as [w2 c2] eqn:Hrun2.
  cbn [outcome world_after fst snd] in *. subst c2.
  exists w1, w2. repeat split; assumption.
Qed.

(** ** The Google strategy *)

Lemma find_None_not_In (email : string) (us : list User.t) :
  find (has_email email) us = None -> ~ In email (map User.email us).
Proof.
  intros Hnone Hin. apply in_map_iff in Hin. destruct Hin as (u & Hu & Hin).
  pose proof (find_none _ _ Hnone u Hin) as Hfalse.
  unfold has_email in Hfalse. rewrite Hu, String.eqb_refl in Hfalse.
  discriminate.
Qed.

Lemma NoDup_emails_add (us : list User.t) (u : User.t) :
  NoDup (map User.email us) ->
  find (has_email (User.email u)) us = None ->
  NoDup (map User.email (us ++ [u])).
Proof.
  intros Hnodup Hfree. rewrite map_app. apply NoDup_app.
  - exact Hnodup.
  - cbn [map]. constructor; [intros []|constructor].
  - intros a Ha [<-|[]]. exact (find_None_not_In _ _ Hfree Ha).
Qed.

(** C9. Two calls of the Google strategy with profiles that carry the same
    first e-mail return the same account (so the same identifier), the second
    one without touching the store; e-mails that were unique stay unique;
    and an account that was there before the first call is returned as it
    is, the store untouched, whatever the profile says. *)
Theorem resolve_from_provider_idempotent (p1 p2 : Profile) (email : string)
    (others1 others2 : list string) (w : World) :
  emails p1 = email :: others1 ->
  emails p2 = email :: others2 ->
  NoDup (map User.email (users (database w))) ->
  exists u w1,
    googleStrategy p1 w = (w1, Return u) /\
    googleStrategy p2 w1 = (w1, Return u) /\
    NoDup (map User.email (users (database w1))) /\
    (forall u0,
       find (has_email email) (users (database w)) = Some u0 ->
       u = u0 /\ w1 = w).
Proof.
  intros H1 H2 Hnodup. unfold googleStrategy, user_upsert, user_create.
  rewrite H1, H2. cbn [data_email].
  destruct (find (has_email email) (users (database w))) as [u0|] eqn:Hfind.
  - exists u0, w. rewrite Hfind.
    split; [reflexivity|]. split; [reflexivity|]. split; [assumption|].
    intros u1 Hu1. injection Hu1 as <-. split; reflexivity.
  - eexists. eexists. split; [reflexivity|].
    cbn [database users data_password data_fullName data_emailVerified
         data_isGoogleSignUp or_default].
    erewrite (find_has_email_last email _ _ Hfind) by reflexivity.
    split; [reflexivity|]. split; [|discriminate].
    apply NoDup_emails_add; assumption.
Qed.

(* ================================================================== *)
(** * Further properties *)

(** ** Stored hashes *)

Lemma length_append (a b : string) :
  String.length (a ++ b) = String.length a + String.length b.
Proof. induction a as [|c a IH]; cbn; [reflexivity|rewrite IH; reflexivity]. Qed.

Lemma length_toString_hex (buf : list byte) :
  String.length (toString_hex buf) = 2 * List.length buf.
Proof.
  induction buf as [|b rest IH]; [reflexivity|].
  cbn [toString_hex String.length List.length]. rewrite IH. lia.
Qed.

Lemma occurs_append (c : ascii) (a b : string) :
  occurs c (a ++ b) = occurs c a || occurs c b.
Proof.
  induction a as [|x a IH]; [reflexivity|].
  cbn [String.append occurs]. rewrite IH, orb_assoc. reflexivity.
Qed.

(** Decoding stops at the first character that is no hex digit. *)
Lemma decode_stops (buf : list byte) (c : ascii) (rest : string) :
  unhex c = None ->
  Buffer_from_hex (toString_hex buf ++ String c rest) = buf.
Proof.
  intros Hc. induction buf as [|b buf IH].
  - cbn [toString_hex String.append Buffer_from_hex].
    destruct rest; [reflexivity|]. rewrite Hc. reflexivity.
  - cbn [toString_hex String.append Buffer_from_hex].
    destruct (hex_pair b) as (Hhi & Hlo & Hb).
    rewrite Hhi, Hlo, Hb, IH. reflexivity.
Qed.

(** X1. Decoding the hex encoding of a buffer gives the buffer back:
    [Buffer.from(buf.toString("hex"), "hex")] is [buf]. *)
Theorem hex_round_trip (buf : list byte) :
  Buffer_from_hex (toString_hex buf) = buf.
Proof. exact (decode_encode buf). Qed.

Section StoredHashes.

Variable scrypt : string -> string -> nat -> scryptResult.

Hypothesis scrypt_keylen :
  forall password salt keylen derivedKey,
    scrypt password salt keylen = DerivedKey derivedKey ->
    List.length derivedKey = keylen.

(** X2. The string [hash] fulfils with, for the 16 salt bytes it draws: 97
    characters, the 32 hex digits of the salt, one dot, the 64 hex digits of
    the key, so that splitting it at the dot gives exactly these two parts. *)
Theorem hash_shape (entropy : list byte) (password : string)
    (derivedKey : list byte) :
  List.length entropy = 16 ->
  scrypt password (toString_hex entropy) keyLength = DerivedKey derivedKey ->
  exists h,
    hash scrypt entropy password = mkAsync (Fulfilled h) [] /\
    String.length h = 97 /\
    split dot h = [toString_hex entropy; toString_hex derivedKey] /\
    String.length (toString_hex entropy) = 32 /\
    String.length (toString_hex derivedKey) = 64.
Proof.
  intros Hentropy Hkey.
  pose proof (scrypt_keylen _ _ _ _ Hkey) as Hlen. unfold keyLength in Hlen.
  exists (toString_hex entropy ++ String dot (toString_hex derivedKey)).
  split; [unfold hash; rewrite Hkey; reflexivity|].
  split; [|split; [|split]].
  - rewrite length_append. cbn [String.length].
    rewrite !length_toString_hex, Hentropy, Hlen. reflexivity.
  - rewrite (split_at_first_sep _ _ _ (hex_has_no_dot entropy)).
    rewrite (split_without_sep _ _ (hex_has_no_dot derivedKey)). reflexivity.
  - rewrite length_toString_hex, Hentropy. reflexivity.
  - rewrite length_toString_hex, Hlen. reflexivity.
Qed.

(** X3. [compare] answers [false] for a password from which scrypt derives
    another key than the stored one: with the stored hash of one password,
    another password is accepted only if both derive the same key. *)
Theorem compare_rejects_other_key (entropy : list byte)
    (password other : string) (derivedKey otherKey : list byte) :
  scrypt password (toString_hex entropy) keyLength = DerivedKey derivedKey ->
  scrypt other (toString_hex entropy) keyLength = DerivedKey otherKey ->
  derivedKey <> otherKey ->
  compare scrypt other
    (toString_hex entropy ++ String dot (toString_hex derivedKey))
  = mkAsync (Fulfilled false) [].
Proof.
  intros Hkey Hother Hdiff.
  rewrite compare_well_formed by apply hex_has_no_dot.
  rewrite Hother, decode_encode. unfold timingSafeEqual.
  rewrite (scrypt_keylen _ _ _ _ Hkey), (scrypt_keylen _ _ _ _ Hother).
  rewrite Nat.eqb_refl.
  destruct (bytes_eqb derivedKey otherKey) eqn:Heq; [|reflexivity].
  apply bytes_eqb_true in Heq. contradiction.
Qed.

(** X4. Only the first two parts of the stored hash count: what follows a
    second dot is ignored by [compare]. *)
Theorem compare_ignores_third_part (password salt key rest : string) :
  occurs dot salt = false ->
  occurs dot key = false ->
  compare scrypt password (salt ++ String dot (key ++ String dot rest))
  = compare scrypt password (salt ++ String dot key).
Proof.
  intros Hsalt Hkey. unfold compare.
  rewrite !(split_at_first_sep _ _ _ Hsalt).
  rewrite (split_at_first_sep _ _ _ Hkey), (split_without_sep _ _ Hkey).
  reflexivity.
Qed.

(** X5. The key part is decoded up to its first character that is no hex
    digit: the string [hash] made, followed by such a character and anything
    without a dot, is accepted by [compare] as the string itself is. *)
Theorem compare_accepts_trailing_garbage (entropy : list byte)
    (password : string) (derivedKey : list byte) (c : ascii) (rest : string) :
  scrypt password (toString_hex entropy) keyLength = DerivedKey derivedKey ->
  unhex c = None ->
  occurs dot (String c rest) = false ->
  compare scrypt password
    (toString_hex entropy
     ++ String dot (toString_hex derivedKey ++ String c rest))
  = mkAsync (Fulfilled true) [].
Proof.
  intros Hkey Hc Hdot.
  rewrite compare_well_formed;
    [|apply hex_has_no_dot
     |rewrite occurs_append, hex_has_no_dot; exact Hdot].
  rewrite Hkey, (decode_stops _ _ _ Hc). unfold timingSafeEqual.
  rewrite Nat.eqb_refl, bytes_eqb_refl. reflexivity.
Qed.

End StoredHashes.

(** ** The payload schema *)

(** X6. What the schema accepts: a context that is an object is parsed with
    success exactly when its [email] and [password] are strings, its
    [fullName] is a string or absent, its [tocAccepted] is [true] or absent
    and its [type] is login or signup; the data are these values.  So the
    parsed [tocAccepted] is never [false]. *)
Theorem safeParse_success_iff (fields : list (string * jsValue))
    (data : Payload.t) :
  payloadSchema_safeParse (JObject fields) = ParseSuccess data <->
  get "email" fields = JString (Payload.email data) /\
  get "password" fields = JString (Payload.password data) /\
  get "fullName" fields
  = match Payload.fullName data with
    | Some s => JString s
    | None => JUndefined
    end /\
  match Payload.tocAccepted data with
  | Some b => b = true /\ get "tocAccepted" fields = JBoolean true
  | None => get "tocAccepted" fields = JUndefined
  end /\
  get "type" fields
  = JString match Payload.type data with
            | login => "login"
            | signup => "signup"
            end.
Proof.
  unfold payloadSchema_safeParse. split.
  - destruct (get "email" fields) as [| | | |e|]; cbn; try discriminate.
    destruct (get "password" fields) as [| | | |p|]; cbn; try discriminate.
    destruct (get "fullName" fields) as [| | | |f|]; cbn; try discriminate;
      (destruct (get "tocAccepted" fields) as [| |[|]| | |]; cbn;
       try discriminate;
       (destruct (get "type" fields) as [| | | |t|]; cbn; try discriminate;
        destruct (String.eqb_spec t "login") as [->|_];
        [|destruct (String.eqb_spec t "signup") as [->|_];
          [|discriminate]];
        intros H; injection H as <-; cbn; repeat split; reflexivity)).
  - destruct data as [e p f a t]. cbn.
    intros (-> & -> & -> & Htoc & ->).
    destruct a as [b|]; [destruct Htoc as (-> & ->)|rewrite Htoc];
      destruct f, t; reflexivity.
Qed.

(** X7. A key the schema does not name makes no difference to the parse. *)
Theorem safeParse_ignores_unknown_key (key : string) (v : jsValue)
    (fields : list (string * jsValue)) :
  key <> "email" -> key <> "password" -> key <> "fullName" ->
  key <> "tocAccepted" -> key <> "type" ->
  payloadSchema_safeParse (JObject ((key, v) :: fields))
  = payloadSchema_safeParse (JObject fields).
Proof.
  intros He Hp Hf Ha Ht. unfold payloadSchema_safeParse. cbn [get].
  apply String.eqb_neq in He, Hp, Hf, Ha, Ht.
  rewrite He, Hp, Hf, Ha, Ht. reflexivity.
Qed.

(** ** The form strategy, branch by branch *)

Section Strategies.

Variable scrypt : string -> string -> nat -> scryptResult.

(** X8. A context whose [tocAccepted] is [false] is refused: the strategy
    throws [Error("Parsing Failed")] whose cause names the field, and the
    world is as before, whatever the other fields are. *)
Theorem tocAccepted_false_is_refused (env : Env)
    (fields : list (string * jsValue)) (w : World) :
  get "tocAccepted" fields = JBoolean false ->
  exists cause,
    formStrategy scrypt env (JObject fields) w
    = (w, Throw (ErrorWithCause "Parsing Failed" cause)) /\
    In "tocAccepted" cause.
Proof.
  intros Htoc. unfold formStrategy, payloadSchema_safeParse.
  rewrite Htoc. cbn [z_literal_true_optional].
  destruct (z_string "email" (get "email" fields));
    destruct (z_string "password" (get "password" fields));
    destruct (z_string_optional "fullName" (get "fullName" fields));
    destruct (z_enum_type "type" (get "type" fields));
    (eexists; split; [reflexivity|]);
    cbn [issues]; rewrite !in_app_iff; cbn [In]; auto 10.
Qed.



(** X11. A login reads and never writes: whatever its outcome, the store
    and the e-mails sent are as before. *)
Theorem login_is_read_only (env : Env) (context : jsValue)
    (data : Payload.t) (w : World) :
  payloadSchema_safeParse context = ParseSuccess data ->
  Payload.type data = login ->
  database (world_after (formStrategy scrypt env context w)) = database w /\
  outbox (world_after (formStrategy scrypt env context w)) = outbox w.
Proof.
  intros Hparse Htype.
  rewrite (formStrategy_login scrypt env _ _ w Hparse Htype).
  destruct (find (has_email (Payload.email data)) (users (database w)));
    [|split; reflexivity].
  unfold bind, await.
  destruct (settled (compare scrypt (Payload.password data)
                       (password_or_empty (User.password t))))
    as [[|]| |]; split; reflexivity.
Qed.

(** X12. A login returns only the account stored for the e-mail of the
    payload, and only when [compare] fulfilled with [true] for the password
    of the payload and the hash of that account. *)
Theorem login_returns_the_matching_account (env : Env) (context : jsValue)
    (data : Payload.t) (w : World) (u : User.t) :
  payloadSchema_safeParse context = ParseSuccess data ->
  Payload.type data = login ->
  outcome (formStrategy scrypt env context w) = Return u ->
  find (has_email (Payload.email data)) (users (database w)) = Some u /\
  User.email u = Payload.email data /\
  settled (compare scrypt (Payload.password data)
             (password_or_empty (User.password u))) = Fulfilled true.
Proof.
  intros Hparse Htype.
  rewrite (formStrategy_login scrypt env _ _ w Hparse Htype).
  destruct (find (has_email (Payload.email data)) (users (database w)))
    as [u0|] eqn:Hfind; [|discriminate].
  unfold bind, await, outcome.
  destruct (settled (compare scrypt (Payload.password data)
                       (password_or_empty (User.password u0))))
    as [[|]| |] eqn:Hcompare; cbn; try discriminate.
  intros H. injection H as <-. split; [reflexivity|]. split; [|exact Hcompare].
  apply find_some in Hfind. destruct Hfind as (_ & Hemail).
  apply String.eqb_eq. exact Hemail.
Qed.

(** X13. Signup, then login: the account a signup creates is returned by a
    login with the same e-mail and password in the world the signup left,
    and that login changes nothing. *)
Theorem signup_then_login (env env' : Env) (signupContext loginContext : jsValue)
    (signupData loginData : Payload.t) (w : World) (derivedKey : list byte) :
  payloadSchema_safeParse signupContext = ParseSuccess signupData ->
  Payload.type signupData = signup ->
  payloadSchema_safeParse loginContext = ParseSuccess loginData ->
  Payload.type loginData = login ->
  Payload.email loginData = Payload.email signupData ->
  Payload.password loginData = Payload.password signupData ->
  find (has_email (Payload.email signupData)) (users (database w)) = None ->
  scrypt (Payload.password signupData) (toString_hex (randomBytes16 env))
    keyLength = DerivedKey derivedKey ->
  exists u w1,
    formStrategy scrypt env signupContext w = (w1, Return u) /\
    formStrategy scrypt env' loginContext w1 = (w1, Return u).
Proof.
  intros HparseS HtypeS HparseL HtypeL Hemail Hpassword Hfree Hkey.
  rewrite (formStrategy_signup scrypt env _ _ w _ HparseS HtypeS Hkey).
  destruct (signup_creates env w
              (mkUserCreateInput (Payload.email signupData)
                 (Some (toString_hex (randomBytes16 env)
                        ++ String dot (toString_hex derivedKey)))
                 "test" None None) Hfree) as (w1 & Hrun & Husers & _).
  eexists. exists w1. split; [exact Hrun|].
  rewrite (formStrategy_login scrypt env' _ _ w1 HparseL HtypeL).
  rewrite Hemail, Hpassword, Husers.
  cbn [data_email data_password data_fullName data_emailVerified
       data_isGoogleSignUp or_default].
  erewrite (find_has_email_last _ _ _ Hfree) by reflexivity.
  cbn [User.password]. rewrite password_or_empty_Some. unfold bind.
  rewrite (compare_own_hash scrypt _ _ _ Hkey), await_quiet. reflexivity.
Qed.

(** X14. A signup whose verification e-mail cannot be sent still succeeds:
    when the call of the mailer throws, the strategy returns the account it
    created, the account stays stored, no code is stored for it, and the
    error of the mailer is a rejection nobody handles. *)
Theorem signup_survives_mail_error (env : Env) (context : jsValue)
    (data : Payload.t) (w : World) (derivedKey : list byte) (e : jsError) :
  payloadSchema_safeParse context = ParseSuccess data ->
  Payload.type data = signup ->
  find (has_email (Payload.email data)) (users (database w)) = None ->
  scrypt (Payload.password data) (toString_hex (randomBytes16 env)) keyLength
    = DerivedKey derivedKey ->
  mail env = SendThrew e ->
  exists u,
    formStrategy scrypt env context w
    = (mkWorld
         (mkDatabase (users (database w) ++ [u])
            (verificationCodes (database w)) (S (nextUserId (database w))))
         (outbox w) (unhandled w ++ [e]),
       Return u) /\
    User.email u = Payload.email data.
Proof.
  intros Hparse Htype Hfree Hkey Hmail.
  rewrite (formStrategy_signup scrypt env _ _ w _ Hparse Htype Hkey).
  unfold bind at 1. unfold user_create. cbn [data_email]. rewrite Hfree.
  unfold bind, detached. rewrite sendVerificationCode_run, Hmail.
  eexists. split; reflexivity.
Qed.

(** X15. A signup whose verification e-mail is delivered: one message goes
    to the e-mail of the payload, and the one code stored for the new
    account is the code of that message, valid for twenty minutes. *)
Theorem signup_sends_the_stored_code (env : Env) (context : jsValue)
    (data : Payload.t) (w : World) (derivedKey : list byte) :
  payloadSchema_safeParse context = ParseSuccess data ->
  Payload.type data = signup ->
  find (has_email (Payload.email data)) (users (database w)) = None ->
  scrypt (Payload.password data) (toString_hex (randomBytes16 env)) keyLength
    = DerivedKey derivedKey ->
  mail env = Delivered ->
  exists u w',
    formStrategy scrypt env context w = (w', Return u) /\
    outbox w' = (outbox w ++ [(Payload.email data, generatedCode env)])%list /\
    filter (belongs_to (User.id u)) (verificationCodes (database w'))
    = [VerificationCode.make (generatedCode env) (User.id u)
         (dateNow env + 20 * 60 * 1000)%Z] /\
    unhandled w' = unhandled w.
Proof.
  intros Hparse Htype Hfree Hkey Hmail.
  rewrite (formStrategy_signup scrypt env _ _ w _ Hparse Htype Hkey).
  unfold bind at 1. unfold user_create. cbn [data_email]. rewrite Hfree.
  unfold bind, detached. rewrite sendVerificationCode_run, Hmail.
  eexists. eexists. split; [reflexivity|].
  cbn [outbox unhandled database verificationCodes User.id User.email].
  split; [reflexivity|]. split; [|reflexivity].
  rewrite filter_app, filter_after_delete. cbn [filter app].
  unfold belongs_to. cbn [VerificationCode.userId].
  rewrite Nat.eqb_refl. reflexivity.
Qed.

(** What the form strategy can do to the accounts, over all its branches:
    nothing, or add one account whose e-mail was free. *)
Lemma formStrategy_accounts (env : Env) (context : jsValue) (w : World) :
  users (database (world_after (formStrategy scrypt env context w)))
  = users (database w)
  \/ exists u,
       find (has_email (User.email u)) (users (database w)) = None /\
       users (database (world_after (formStrategy scrypt env context w)))
       = (users (database w) ++ [u])%list.
Proof.
  destruct (payloadSchema_safeParse context) as [data|flatten] eqn:Hparse.
  - destruct (Payload.type data) eqn:Htype.
    + left.
      rewrite (formStrategy_login scrypt env _ _ w Hparse Htype).
      destruct (find (has_email (Payload.email data)) (users (database w)));
        [|reflexivity].
      unfold bind, await.
      destruct (settled (compare scrypt (Payload.password data)
                           (password_or_empty (User.password t))))
        as [[|]| |]; reflexivity.
    + destruct (scrypt (Payload.password data)
                  (toString_hex (randomBytes16 env)) keyLength)
        as [err|derivedKey] eqn:Hkey.
      * left. unfold formStrategy. rewrite Hparse, Htype.
        unfold bind at 1. unfold hash. rewrite Hkey. reflexivity.
      * rewrite (formStrategy_signup scrypt env _ _ w _ Hparse Htype Hkey).
        destruct (find (has_email (Payload.email data)) (users (database w)))
          as [u0|] eqn:Hfind.
        -- left. unfold bind at 1. unfold user_create. cbn [data_email].
           rewrite Hfind. reflexivity.
        -- right.
           destruct (signup_creates env w
                       (mkUserCreateInput (Payload.email data)
                          (Some (toString_hex (randomBytes16 env)
                                 ++ String dot (toString_hex derivedKey)))
                          "test" None None) Hfind)
             as (w' & Hrun & Husers & _).
           rewrite Hrun. eexists. split; [|exact Husers]. exact Hfind.
  - left. unfold formStrategy. rewrite Hparse. reflexivity.
Qed.

(** X16. Neither strategy removes or alters a stored account: after any
    call, with any input, the accounts are those stored before, followed by
    at most one new account. *)
Theorem strategies_keep_accounts (env : Env) (context : jsValue)
    (profile : Profile) (w : World) :
  (exists added,
     users (database (world_after (formStrategy scrypt env context w)))
     = (users (database w) ++ added)%list /\ List.length added <= 1) /\
  (exists added,
     users (database (world_after (googleStrategy profile w)))
     = (users (database w) ++ added)%list /\ List.length added <= 1).
Proof.
  split.
  - destruct (formStrategy_accounts env context w) as [Hsame|(u & _ & Hadd)].
    + exists []. rewrite Hsame, app_nil_r. split; [reflexivity|apply Nat.le_0_1].
    + exists [u]. rewrite Hadd. split; [reflexivity|apply Nat.le_refl].
  - unfold googleStrategy, user_upsert, user_create.
    destruct (emails profile) as [|email others].
    + exists []. rewrite app_nil_r. split; [reflexivity|apply Nat.le_0_1].
    + cbn [data_email].
      destruct (find (has_email email) (users (database w))).
      * exists []. rewrite app_nil_r. split; [reflexivity|apply Nat.le_0_1].
      * eexists [_]. split; [reflexivity|apply Nat.le_refl].
Qed.

(** X17. The form strategy keeps the e-mails of the accounts unique: if no
    two stored accounts share an e-mail before a call, none do after it,
    whatever the input and the outcome. *)
Theorem formStrategy_keeps_emails_unique (env : Env) (context : jsValue)
    (w : World) :
  NoDup (map User.email (users (database w))) ->
  NoDup (map User.email
           (users (database (world_after (formStrategy scrypt env context w))))).
Proof.
  intros Hnodup.
  destruct (formStrategy_accounts env context w) as [Hsame|(u & Hfree & Hadd)].
  - rewrite Hsame. exact Hnodup.
  - rewrite Hadd. apply NoDup_emails_add; assumption.
Qed.

(** X18. Signup, then Google sign-in with the same e-mail: the Google
    strategy returns the account the signup created as it is, with its
    password hash and the display name of the signup, not that of the
    profile, and changes nothing. *)
Theorem signup_then_google (env : Env) (context : jsValue) (data : Payload.t)
    (profile : Profile) (others : list string) (w : World)
    (derivedKey : list byte) :
  payloadSchema_safeParse context = ParseSuccess data ->
  Payload.type data = signup ->
  find (has_email (Payload.email data)) (users (database w)) = None ->
  scrypt (Payload.password data) (toString_hex (randomBytes16 env)) keyLength
    = DerivedKey derivedKey ->
  emails profile = Payload.email data :: others ->
  exists u w1,
    formStrategy scrypt env context w = (w1, Return u) /\
    googleStrategy profile w1 = (w1, Return u) /\
    User.fullName u = "test" /\
    User.password u
    = Some (toString_hex (randomBytes16 env)
            ++ String dot (toString_hex derivedKey)).
Proof.
  intros Hparse Htype Hfree Hkey Hemails.
  rewrite (formStrategy_signup scrypt env _ _ w _ Hparse Htype Hkey).
  destruct (signup_creates env w
              (mkUserCreateInput (Payload.email data)
                 (Some (toString_hex (randomBytes16 env)
                        ++ String dot (toString_hex derivedKey)))
                 "test" None None) Hfree) as (w1 & Hrun & Husers & _).
  eexists. exists w1. split; [exact Hrun|].
  unfold googleStrategy, user_upsert. rewrite Hemails, Husers.
  erewrite (find_has_email_last _ _ _ Hfree) by reflexivity.
  repeat split.
Qed.

End Strategies.

(** ** The issuer and the Google strategy, on their own *)

(** X19. An issuance touches the codes of its account only: whatever becomes
    of the e-mail, the accounts are as before and so are the codes of every
    other account. *)
Theorem issuance_touches_only_own_codes (env : Env) (user : User.t)
    (w : World) (other : nat) :
  other <> User.id user ->
  users (database (world_after (sendVerificationCode env user w)))
  = users (database w) /\
  filter (belongs_to other)
    (verificationCodes
       (database (world_after (sendVerificationCode env user w))))
  = filter (belongs_to other) (verificationCodes (database w)).
Proof.
  intros Hother. split; [apply sendVerificationCode_users|].
  assert (Hnew : Nat.eqb (User.id user) other = false)
    by (apply Nat.eqb_neq; intros H; apply Hother; symmetry; exact H).
  assert (Hdisjoint : forall c, belongs_to other c = true ->
                                belongs_to (User.id user) c = false).
  { unfold belongs_to. intros c Hc. apply Nat.eqb_eq in Hc.
    rewrite Hc. apply Nat.eqb_neq. exact Hother. }
  rewrite sendVerificationCode_run.
  destruct (mail env); cbn [world_after fst database verificationCodes];
    [| |reflexivity];
    rewrite filter_app, (filter_others_after_delete _ _ _ _ Hdisjoint);
    cbn [filter]; unfold belongs_to at 2; cbn [VerificationCode.userId];
    rewrite Hnew; apply app_nil_r.
Qed.

(** X20. A message is recorded exactly when the mailer accepts it: then it
    is one message, to the e-mail of the account, with the code that the
    issuance stored; in the other cases the messages sent are as before. *)
Theorem message_carries_the_stored_code (env : Env) (user : User.t)
    (w : World) :
  (mail env = Delivered ->
   outbox (world_after (sendVerificationCode env user w))
   = (outbox w ++ [(User.email user, generatedCode env)])%list /\
   map VerificationCode.code
     (filter (belongs_to (User.id user))
        (verificationCodes
           (database (world_after (sendVerificationCode env user w)))))
   = [generatedCode env]) /\
  (mail env <> Delivered ->
   outbox (world_after (sendVerificationCode env user w)) = outbox w).
Proof.
  rewrite sendVerificationCode_run. split.
  - intros ->. cbn [world_after fst outbox database verificationCodes].
    split; [reflexivity|].
    rewrite filter_app, filter_after_delete. cbn [filter app].
    unfold belongs_to. cbn [VerificationCode.userId].
    rewrite Nat.eqb_refl. reflexivity.
  - intros Hmail. destruct (mail env); [contradiction| |]; reflexivity.
Qed.

(** X21. A first Google sign-in creates the account from the profile: its
    e-mail is the first e-mail of the profile, its display name that of the
    profile, it has no password and is marked verified and as a Google
    account; it is stored after the accounts there were, and neither a code
    nor a message is issued for it. *)
Theorem google_creates_verified_account (profile : Profile) (email : string)
    (others : list string) (w : World) :
  emails profile = email :: others ->
  find (has_email email) (users (database w)) = None ->
  exists u w',
    googleStrategy profile w = (w', Return u) /\
    users (database w') = (users (database w) ++ [u])%list /\
    User.email u = email /\
    User.fullName u = displayName profile /\
    User.password u = None /\
    User.emailVerified u = true /\
    User.isGoogleSignUp u = true /\
    verificationCodes (database w') = verificationCodes (database w) /\
    outbox w' = outbox w.
Proof.
  intros Hemails Hfree.
  unfold googleStrategy, user_upsert, user_create.
  rewrite Hemails. cbn [data_email]. rewrite Hfree.
  eexists. eexists. split; [reflexivity|]. repeat split.
Qed.

(* ================================================================== *)
(** * The properties on sample inputs *)

Lemma hash_compare_round_trip_witness :
  exists h,
    hash demo_scrypt demo_entropy "opensesame" = mkAsync (Fulfilled h) [] /\
    compare demo_scrypt "opensesame" h = mkAsync (Fulfilled true) [].
Proof.
  eapply (hash_compare_round_trip demo_scrypt demo_entropy "opensesame").
  reflexivity.
Defined.

Lemma compare_malformed_hash_witness :
  compare demo_scrypt "opensesame" "6f70656e736573616d65"
  = mkAsync (Rejected ERR_INVALID_ARG_TYPE) [] /\
  compare demo_scrypt "opensesame" "00.6f70656e736573616d65.00"
  = mkAsync Pending [ERR_CRYPTO_TIMING_SAFE_EQUAL_LENGTH] /\
  compare demo_scrypt "wrong"
    "00.6f70656e736573616d6530300000000000000000000000000000000000000000f"
  = mkAsync (Fulfilled false) [] /\
  compare demo_scrypt "opensesame"
    "00.6f70656e736573616d6530300000000000000000000000000000000000000000f"
  = mkAsync (Fulfilled true) [].
Proof.
  split; [|split; [|split]].
  - apply (proj1 (compare_malformed_hash demo_scrypt demo_scrypt_keylen
                    "opensesame" "6f70656e736573616d65")).
    reflexivity.
  - eapply (proj1 (proj2 (compare_malformed_hash demo_scrypt
                            demo_scrypt_keylen "opensesame"
                            "00.6f70656e736573616d65.00"))).
    + reflexivity.
    + reflexivity.
    + cbv. discriminate.
  - exact (proj2 (proj2 (proj2 (proj2
             (compare_malformed_hash demo_scrypt demo_scrypt_keylen "wrong"
                "00.6f70656e736573616d6530300000000000000000000000000000000000000000f"))))
             _ _ _ _ eq_refl eq_refl eq_refl).
  - exact (proj2 (proj2 (proj2 (proj2
             (compare_malformed_hash demo_scrypt demo_scrypt_keylen
                "opensesame"
                "00.6f70656e736573616d6530300000000000000000000000000000000000000000f"))))
             _ _ _ _ eq_refl eq_refl eq_refl).
Defined.

(** A stored hash without separator makes [compare] reject, and one whose key
    part is two bytes long leaves it pending with a RangeError thrown where
    nothing catches it: neither answers [false]. *)
Lemma compare_malformed_hash_counterexample :
  settled (compare demo_scrypt "pw" "nodot") = Rejected ERR_INVALID_ARG_TYPE
  /\ settled (compare demo_scrypt "pw" "00.abcd") = Pending
  /\ escaped (compare demo_scrypt "pw" "00.abcd")
     = [ERR_CRYPTO_TIMING_SAFE_EQUAL_LENGTH].
Proof. repeat split. Qed.

Lemma login_failures_differ_witness :
  outcome (formStrategy demo_scrypt (demo_env Delivered)
             (credentials "bob@example.com" "wrong" "login") empty_world)
  = Throw (Error "Login failed")
  /\ outcome (formStrategy demo_scrypt (demo_env Delivered)
                (credentials "bob@example.com" "wrong" "login") demo_world)
     = Throw (Error "INVALID_PASSWORD")
  /\ error_shape (Error "Login failed")
     <> error_shape (Error "INVALID_PASSWORD").
Proof.
  apply (login_failures_differ demo_scrypt (demo_env Delivered)
           (credentials "bob@example.com" "wrong" "login")
           (Payload.make "bob@example.com" "wrong" None None login)
           empty_world demo_world bob);
    reflexivity.
Defined.

(** Against the same store and with the same password, an unknown email and
    a known one fail with different messages. *)
Lemma login_failures_differ_counterexample :
  exists e1 e2,
    outcome (formStrategy demo_scrypt (demo_env Delivered)
               (credentials "nobody@example.com" "secret" "login") demo_world)
    = Throw e1 /\
    outcome (formStrategy demo_scrypt (demo_env Delivered)
               (credentials "bob@example.com" "secret" "login") demo_world)
    = Throw e2 /\
    err_message e1 = "Login failed" /\
    err_message e2 = "INVALID_PASSWORD".
Proof. do 2 eexists. repeat split. Qed.

Lemma google_account_not_accepted_witness :
  exists u w',
    googleStrategy (mkProfile ["carol@example.com"] "Carol") demo_world
    = (w', Return u) /\
    User.password u = None /\
    formStrategy demo_scrypt (demo_env Delivered)
      (credentials "carol@example.com" "anything" "login") w'
    = (w', Throw ERR_INVALID_ARG_TYPE).
Proof.
  apply (google_account_not_accepted demo_scrypt (demo_env Delivered)
           (mkProfile ["carol@example.com"] "Carol") "carol@example.com" []
           (credentials "carol@example.com" "anything" "login")
           (Payload.make "carol@example.com" "anything" None None login)
           demo_world);
    reflexivity.
Defined.

Lemma duplicate_signup_throws_store_error_witness :
  formStrategy demo_scrypt (demo_env Delivered)
    (credentials "bob@example.com" "another" "signup") demo_world
  = (demo_world, Throw P2002).
Proof.
  eapply (duplicate_signup_throws_store_error demo_scrypt (demo_env Delivered)
            (credentials "bob@example.com" "another" "signup")
            (Payload.make "bob@example.com" "another" None None signup)
            demo_world bob);
    reflexivity.
Defined.

(** Signing up with the email of bob throws an error that is no
    ConflictError. *)
Lemma duplicate_signup_counterexample :
  exists e,
    outcome (formStrategy demo_scrypt (demo_env Delivered)
               (credentials "bob@example.com" "another" "signup") demo_world)
    = Throw e /\
    err_name e = "PrismaClientKnownRequestError" /\
    err_code e = "P2002" /\
    String.eqb (err_name e) "ConflictError" = false.
Proof. eexists. repeat split. Qed.

Lemma empty_password_passes_validation_witness :
  payloadSchema_safeParse
    (credentials "carol@example.com" EmptyString "signup")
  = ParseSuccess
      (Payload.make "carol@example.com" EmptyString None None signup).
Proof.
  apply (proj1 (empty_password_passes_validation demo_scrypt
                  [("email", JString "carol@example.com");
                   ("password", JString EmptyString);
                   ("type", JString "signup")]
                  "carol@example.com" None None signup
                  eq_refl eq_refl eq_refl eq_refl eq_refl)).
Defined.

(** A signup with the empty password goes through: the account is created
    with a hash of the empty password. *)
Lemma empty_password_counterexample :
  outcome (formStrategy demo_scrypt (demo_env Delivered)
             (credentials "carol@example.com" EmptyString "signup")
             empty_world)
  = Return
      (User.make 1 "carol@example.com"
         (Some "000102030405060708090a0b0cdeadff.3030303130323033303430353036303730383039306130623063646561646666")
         "test" false false).
Proof. reflexivity. Qed.

(** A call of the mailer that throws undoes the issuance: the codes stored
    afterwards are those stored before. *)
Lemma delivery_failure_counterexample :
  sendVerificationCode (demo_env (SendThrew (Error "fetch failed"))) alice
    demo_world
  = (demo_world, Throw (Error "fetch failed")).
Proof. reflexivity. Qed.

Lemma one_active_code_witness :
  exists w1 w2,
    sendVerificationCode (demo_env Delivered) alice demo_world
    = (w1, Return tt) /\
    filter (belongs_to 1) (verificationCodes (database w1))
    = [VerificationCode.make "12345678" 1 1700001200000] /\
    sendVerificationCode (mkEnv demo_entropy "87654321" 1700000060000 Refused)
      alice w1
    = (w2, Return tt) /\
    filter (belongs_to 1) (verificationCodes (database w2))
    = [VerificationCode.make "87654321" 1 1700001260000].
Proof.
  apply (one_active_code (demo_env Delivered)
           (mkEnv demo_entropy "87654321" 1700000060000 Refused)
           alice demo_world);
    intros e H; discriminate H.
Defined.

Lemma resolve_from_provider_idempotent_witness :
  exists u w1,
    googleStrategy (mkProfile ["carol@example.com"] "Carol") demo_world
    = (w1, Return u) /\
    googleStrategy
      (mkProfile ["carol@example.com"; "carol@work.example"] "C. Jones") w1
    = (w1, Return u) /\
    NoDup (map User.email (users (database w1))) /\
    (forall u0,
       find (has_email "carol@example.com") (users (database demo_world))
       = Some u0 ->
       u = u0 /\ w1 = demo_world).
Proof.
  apply (resolve_from_provider_idempotent
           (mkProfile ["carol@example.com"] "Carol")
           (mkProfile ["carol@example.com"; "carol@work.example"] "C. Jones")
           "carol@example.com" [] ["carol@work.example"] demo_world);
    [reflexivity|reflexivity|].
  cbn. constructor; [|constructor; [intros []|constructor]].
  intros [H|[]]. discriminate H.
Defined.

Lemma signup_display_name_is_test_witness :
  exists u w',
    formStrategy demo_scrypt (demo_env Refused)
      (JObject [("email", JString "carol@example.com");
                ("password", JString "s3cret");
                ("fullName", JString "Carol Jones");
                ("type", JString "signup")])
      demo_world
    = (w', Return u) /\
    User.fullName u = "test" /\
    users (database w') = (users (database demo_world) ++ [u])%list.
Proof.
  eapply (signup_display_name_is_test demo_scrypt (demo_env Refused)
            (JObject [("email", JString "carol@example.com");
                      ("password", JString "s3cret");
                      ("fullName", JString "Carol Jones");
                      ("type", JString "signup")])
            (Payload.make "carol@example.com" "s3cret" (Some "Carol Jones")
               None signup)
            demo_world);
    reflexivity.
Defined.

(** ** The further properties on sample inputs *)

Lemma hash_shape_witness :
  exists h,
    hash demo_scrypt demo_entropy "opensesame" = mkAsync (Fulfilled h) [] /\
    String.length h = 97 /\
    split dot h
    = [toString_hex demo_entropy;
       toString_hex
         (firstn 32
            (list_byte_of_string "opensesame"
             ++ list_byte_of_string (toString_hex demo_entropy)
             ++ repeat x00 32))] /\
    String.length (toString_hex demo_entropy) = 32 /\
    String.length
      (toString_hex
         (firstn 32
            (list_byte_of_string "opensesame"
             ++ list_byte_of_string (toString_hex demo_entropy)
             ++ repeat x00 32))) = 64.
Proof.
  apply (hash_shape demo_scrypt demo_scrypt_keylen demo_entropy "opensesame");
    reflexivity.
Defined.

Lemma compare_rejects_other_key_witness :
  compare demo_scrypt "opensesam3"
    "000102030405060708090a0b0cdeadff.6f70656e736573616d6530303031303230333034303530363037303830393061"
  = mkAsync (Fulfilled false) [].
Proof.
  refine (compare_rejects_other_key demo_scrypt demo_scrypt_keylen
            demo_entropy "opensesame" "opensesam3" _ _ eq_refl eq_refl _).
  cbv. intros H. discriminate H.
Defined.

Lemma compare_ignores_third_part_witness :
  compare demo_scrypt "opensesame"
    "00.6f70656e736573616d6530300000000000000000000000000000000000000000.anything"
  = compare demo_scrypt "opensesame"
      "00.6f70656e736573616d6530300000000000000000000000000000000000000000".
Proof.
  apply (compare_ignores_third_part demo_scrypt "opensesame" "00"
           "6f70656e736573616d6530300000000000000000000000000000000000000000"
           "anything");
    reflexivity.
Defined.

Lemma compare_accepts_trailing_garbage_witness :
  compare demo_scrypt "opensesame"
    "000102030405060708090a0b0cdeadff.6f70656e736573616d6530303031303230333034303530363037303830393061zz-not-hex"
  = mkAsync (Fulfilled true) [].
Proof.
  exact (compare_accepts_trailing_garbage demo_scrypt demo_entropy
           "opensesame" _ "z" "z-not-hex" eq_refl eq_refl eq_refl).
Defined.

Lemma safeParse_ignores_unknown_key_witness :
  payloadSchema_safeParse
    (JObject [("redirectTo", JString "/dashboard");
              ("email", JString "bob@example.com");
              ("password", JString "opensesame");
              ("type", JString "login")])
  = payloadSchema_safeParse (credentials "bob@example.com" "opensesame" "login").
Proof.
  apply (safeParse_ignores_unknown_key "redirectTo" (JString "/dashboard"));
    intros H; discriminate H.
Defined.

Lemma tocAccepted_false_is_refused_witness :
  exists cause,
    formStrategy demo_scrypt (demo_env Delivered)
      (JObject [("email", JString "carol@example.com");
                ("password", JString "s3cret");
                ("tocAccepted", JBoolean false);
                ("type", JString "signup")])
      demo_world
    = (demo_world, Throw (ErrorWithCause "Parsing Failed" cause)) /\
    In "tocAccepted" cause.
Proof.
  apply (tocAccepted_false_is_refused demo_scrypt (demo_env Delivered)
           [("email", JString "carol@example.com");
            ("password", JString "s3cret");
            ("tocAccepted", JBoolean false);
            ("type", JString "signup")]
           demo_world).
  reflexivity.
Defined.



Lemma login_is_read_only_witness :
  database (world_after
              (formStrategy demo_scrypt (demo_env Delivered)
                 (credentials "bob@example.com" "opensesame" "login")
                 demo_world))
  = database demo_world /\
  outbox (world_after
            (formStrategy demo_scrypt (demo_env Delivered)
               (credentials "bob@example.com" "opensesame" "login")
               demo_world))
  = outbox demo_world.
Proof.
  apply (login_is_read_only demo_scrypt (demo_env Delivered)
           (credentials "bob@example.com" "opensesame" "login")
           (Payload.make "bob@example.com" "opensesame" None None login));
    reflexivity.
Defined.

Lemma login_returns_the_matching_account_witness :
  find (has_email "bob@example.com") (users (database demo_world)) = Some bob
  /\ User.email bob = "bob@example.com"
  /\ settled (compare demo_scrypt "opensesame"
                (password_or_empty (User.password bob))) = Fulfilled true.
Proof.
  apply (login_returns_the_matching_account demo_scrypt (demo_env Delivered)
           (credentials "bob@example.com" "opensesame" "login")
           (Payload.make "bob@example.com" "opensesame" None None login)
           demo_world bob);
    reflexivity.
Defined.

Lemma signup_then_login_witness :
  exists u w1,
    formStrategy demo_scrypt (demo_env Delivered)
      (credentials "carol@example.com" "s3cret" "signup") demo_world
    = (w1, Return u) /\
    formStrategy demo_scrypt (demo_env Refused)
      (credentials "carol@example.com" "s3cret" "login") w1
    = (w1, Return u).
Proof.
  eapply (signup_then_login demo_scrypt (demo_env Delivered) (demo_env Refused)
            (credentials "carol@example.com" "s3cret" "signup")
            (credentials "carol@example.com" "s3cret" "login")
            (Payload.make "carol@example.com" "s3cret" None None signup)
            (Payload.make "carol@example.com" "s3cret" None None login)
            demo_world);
    reflexivity.
Defined.

Lemma signup_survives_mail_error_witness :
  exists u,
    formStrategy demo_scrypt (demo_env (SendThrew (Error "fetch failed")))
      (credentials "carol@example.com" "s3cret" "signup") demo_world
    = (mkWorld
         (mkDatabase (users (database demo_world) ++ [u])
            (verificationCodes (database demo_world))
            (S (nextUserId (database demo_world))))
         (outbox demo_world)
         (unhandled demo_world ++ [Error "fetch failed"]),
       Return u) /\
    User.email u = "carol@example.com".
Proof.
  eapply (signup_survives_mail_error demo_scrypt
            (demo_env (SendThrew (Error "fetch failed")))
            (credentials "carol@example.com" "s3cret" "signup")
            (Payload.make "carol@example.com" "s3cret" None None signup)
            demo_world);
    reflexivity.
Defined.

Lemma signup_sends_the_stored_code_witness :
  exists u w',
    formStrategy demo_scrypt (demo_env Delivered)
      (credentials "carol@example.com" "s3cret" "signup") demo_world
    = (w', Return u) /\
    outbox w' = (outbox demo_world ++ [("carol@example.com", "12345678")])%list
    /\ filter (belongs_to (User.id u)) (verificationCodes (database w'))
       = [VerificationCode.make "12345678" (User.id u) 1700001200000] /\
    unhandled w' = unhandled demo_world.
Proof.
  eapply (signup_sends_the_stored_code demo_scrypt (demo_env Delivered)
            (credentials "carol@example.com" "s3cret" "signup")
            (Payload.make "carol@example.com" "s3cret" None None signup)
            demo_world);
    reflexivity.
Defined.

Lemma formStrategy_keeps_emails_unique_witness :
  NoDup (map User.email
           (users (database
                     (world_after
                        (formStrategy demo_scrypt (demo_env Delivered)
                           (credentials "carol@example.com" "s3cret" "signup")
                           demo_world))))).
Proof.
  apply (formStrategy_keeps_emails_unique demo_scrypt (demo_env Delivered)
           (credentials "carol@example.com" "s3cret" "signup") demo_world).
  cbn. constructor; [|constructor; [intros []|constructor]].
  intros [H|[]]. discriminate H.
Defined.

Lemma signup_then_google_witness :
  exists u w1,
    formStrategy demo_scrypt (demo_env Delivered)
      (credentials "carol@example.com" "s3cret" "signup") demo_world
    = (w1, Return u) /\
    googleStrategy (mkProfile ["carol@example.com"] "Carol Jones") w1
    = (w1, Return u) /\
    User.fullName u = "test" /\
    User.password u
    = Some "000102030405060708090a0b0cdeadff.7333637265743030303130323033303430353036303730383039306130623063".
Proof.
  exact (signup_then_google demo_scrypt (demo_env Delivered)
           (credentials "carol@example.com" "s3cret" "signup")
           (Payload.make "carol@example.com" "s3cret" None None signup)
           (mkProfile ["carol@example.com"] "Carol Jones") [] demo_world _
           eq_refl eq_refl eq_refl eq_refl eq_refl).
Defined.

Lemma issuance_touches_only_own_codes_witness :
  users (database
           (world_after (sendVerificationCode (demo_env Delivered) alice
                           demo_world)))
  = users (database demo_world) /\
  filter (belongs_to 2)
    (verificationCodes
       (database
          (world_after (sendVerificationCode (demo_env Delivered) alice
                          demo_world))))
  = filter (belongs_to 2) (verificationCodes (database demo_world)).
Proof.
  apply (issuance_touches_only_own_codes (demo_env Delivered) alice
           demo_world 2).
  intros H. discriminate H.
Defined.

Lemma google_creates_verified_account_witness :
  exists u w',
    googleStrategy (mkProfile ["carol@example.com"] "Carol Jones") demo_world
    = (w', Return u) /\
    users (database w') = (users (database demo_world) ++ [u])%list /\
    User.email u = "carol@example.com" /\
    User.fullName u = "Carol Jones" /\
    User.password u = None /\
    User.emailVerified u = true /\
    User.isGoogleSignUp u = true /\
    verificationCodes (database w') = verificationCodes (database demo_world)
    /\ outbox w' = outbox demo_world.
Proof.
  apply (google_creates_verified_account
           (mkProfile ["carol@example.com"] "Carol Jones")
           "carol@example.com" [] demo_world);
    reflexivity.
Defined.
